(** * Severity resolution pipeline of [ime2/ime2.py]

    A shallow embedding of the adverse-event pipeline of the Flask service
    [ime2.py]: corpus loading ([load_ae_terms_from_csv]), the corpus tier
    check ([check_csv_severity]), the keyword escalation for diagnosed
    conditions ([determine_adr_severity_for_diagnosed]), the event
    extraction with its case-insensitive de-duplication
    ([extract_medical_information]) and the per-event resolution and
    response assembly of the [/analyze] route ([analyze_text]).

    Strings are Stdlib strings of ASCII characters; Python's [str.lower],
    [str.strip] and [in] are written out on them.  Python sets of corpus
    terms are stdpp [gset string]. *)

From stdpp Require Import base gmap strings list pretty.
From Stdlib Require Import Ascii String.

Open Scope string_scope.

(** ** Python string primitives on ASCII strings *)

(** [str.isspace] restricted to ASCII: [\t \n \v \f \r], the separators
    [\x1c]..[\x1f] and the space. *)
Definition is_space (c : ascii) : bool :=
  let n := nat_of_ascii c in
  (((9 <=? n) && (n <=? 13)) || ((28 <=? n) && (n <=? 32)))%nat.

(** [str.lower] on one ASCII character. *)
Definition lower_char (c : ascii) : ascii :=
  let n := nat_of_ascii c in
  if ((65 <=? n) && (n <=? 90))%nat then ascii_of_nat (n + 32)%nat else c.

Fixpoint lower (s : string) : string :=
  match s with
  | EmptyString => EmptyString
  | String c r => String (lower_char c) (lower r)
  end.

Fixpoint lstrip (s : string) : string :=
  match s with
  | EmptyString => EmptyString
  | String c r => if is_space c then lstrip r else s
  end.

Fixpoint rstrip (s : string) : string :=
  match s with
  | EmptyString => EmptyString
  | String c r =>
      let r' := rstrip r in
      if is_space c && String.eqb r' "" then EmptyString else String c r'
  end.

(** [str.strip()] *)
Definition strip (s : string) : string := rstrip (lstrip s).

(** [needle in hay] for strings: true when [needle] occurs at some
    position of [hay] (the empty string occurs everywhere). *)
Fixpoint contains (needle hay : string) : bool :=
  String.prefix needle hay ||
  match hay with
  | EmptyString => false
  | String _ r => contains needle r
  end.

(** [any(term in s for term in terms)] *)
Definition any_in (terms : list string) (s : string) : bool :=
  existsb (fun t => contains t s) terms.

(** ** Severity values *)

Definition SEV_FATAL := "Fatal or death".
Definition SEV_LIFE := "Life threatening".
Definition SEV_HOSP := "Inpatient hospitalization or prolongation of hospitalization".
Definition SEV_CONGENITAL := "Congenital anomaly or birth defect".
Definition SEV_DISABILITY := "Significant disability or incapacity".
Definition SEV_MEDSIG := "Medically significant".
Definition SEV_NONE := "None of the above".

(** [severity_priority] of [analyze_text]. *)
Definition severity_priority : list string :=
  [SEV_FATAL; SEV_LIFE; SEV_HOSP; SEV_CONGENITAL; SEV_DISABILITY; SEV_MEDSIG; SEV_NONE].

(** The seven-valued severity enum of the data model, with the string the
    code uses for each value. *)
Inductive severity :=
  | Fatal | LifeThreatening | Hospitalization | CongenitalAnomaly
  | SignificantDisability | MedicallySignificant | NoneOfTheAbove.

Definition severity_string (s : severity) : string :=
  match s with
  | Fatal => SEV_FATAL
  | LifeThreatening => SEV_LIFE
  | Hospitalization => SEV_HOSP
  | CongenitalAnomaly => SEV_CONGENITAL
  | SignificantDisability => SEV_DISABILITY
  | MedicallySignificant => SEV_MEDSIG
  | NoneOfTheAbove => SEV_NONE
  end.

(** [seriousness = "Non-Serious"; if final_severity in
    severity_priority[:-1]: seriousness = "Serious"] *)
Definition seriousness (final_severity : string) : string :=
  if existsb (String.eqb final_severity) (removelast severity_priority)
  then "Serious" else "Non-Serious".

(** ** Events as the pipeline passes them to [analyze_text]

    The dictionaries built by [extract_medical_information] always carry
    the keys [Term], [Severity] and [Is_Diagnosis]; [Severity] holds a
    string, or [null] when the oracle sent [null] (modelled as [None]). *)
Record event := mk_event {
  Term : string;
  Severity : option string;
  Is_Diagnosis : bool
}.

Section Resolver.

(** The three module-level corpus sets loaded at start-up. *)
Variables medically_significant_terms significant_disability_terms
  congenital_anomaly_terms : gset string.

Definition check_csv_severity (ae_term : string) : option string :=
  let ae_term_lower := strip (lower ae_term) in
  if any_in (elements significant_disability_terms) ae_term_lower then Some SEV_DISABILITY
  else if any_in (elements congenital_anomaly_terms) ae_term_lower then Some SEV_CONGENITAL
  else if any_in (elements medically_significant_terms) ae_term_lower then Some SEV_MEDSIG
  else None.

Definition severity_rules : list (list string * string) :=
  [(["death"; "fatal"; "mortality"; "died"; "passed away"; "deceased"; "expired"; "demise"],
     SEV_FATAL);
   (["life-threatening"; "ventilator"; "emergency intervention"; "critical condition";
     "near death"; "almost died"; "intensive care"], SEV_LIFE);
   (["hospitalization"; "hospital"; "admitted"; "admission"; "emergency room"; "ER visit"],
     SEV_HOSP);
   (elements significant_disability_terms, SEV_DISABILITY);
   (elements congenital_anomaly_terms, SEV_CONGENITAL);
   (elements medically_significant_terms, SEV_MEDSIG)].

(** [for keywords, severity in severity_rules: if any(...): return severity] *)
Fixpoint first_rule (rules : list (list string * string)) (l : string) : string :=
  match rules with
  | [] => SEV_NONE
  | (keywords, sev) :: rest => if any_in keywords l then sev else first_rule rest l
  end.

Definition determine_adr_severity_for_diagnosed (ae_term : string) : string :=
  first_rule severity_rules (strip (lower ae_term)).

(** [if not ai_severity or ai_severity.strip() == "" or
    ai_severity == "To be determined"] *)
Definition is_placeholder (ai : option string) : bool :=
  match ai with
  | None => true
  | Some s => String.eqb s "" || String.eqb (strip s) "" || String.eqb s "To be determined"
  end.

(** The body of the loop of [analyze_text] for one event: [None] when the
    event is skipped ([continue] on an empty term), otherwise the emitted
    term, final severity and seriousness. *)
Definition resolve_event (ev : event) : option (string * string * string) :=
  let ae_term := strip (Term ev) in
  if String.eqb ae_term "" then None else
  let ai_severity :=
    if is_placeholder (Severity ev) then
      (if Is_Diagnosis ev then determine_adr_severity_for_diagnosed ae_term else SEV_NONE)
    else default "" (Severity ev) in
  let final_severity :=
    match check_csv_severity ae_term with
    | Some csv_severity => csv_severity
    | None => ai_severity
    end in
  Some (ae_term, final_severity, seriousness final_severity).

Definition resolved_severity (ev : event) : option string :=
  option_map (fun r => snd (fst r)) (resolve_event ev).

Definition resolved_seriousness (ev : event) : option string :=
  option_map snd (resolve_event ev).

End Resolver.

(** ** Outcomes of calls that may raise

    [PyValueError] is Python's [ValueError] (answered with HTTP 400 by
    [analyze_text]); [PyOtherError] any other exception (HTTP 500, or a
    start-up abort at module level). *)
Inductive py_error := PyValueError | PyOtherError.

Inductive outcome (A : Type) :=
  | Ok (a : A)
  | Err (kind : py_error) (msg : string).
Arguments Ok {A} a.
Arguments Err {A} kind msg.

(** ** Corpus loading ([load_ae_terms_from_csv]) *)

Definition MEDICALLY_SIGNIFICANT_PATH := "data/Medically significant.csv".
Definition SIGNIFICANT_DISABILITY_PATH := "data/Significant disability.csv".
Definition CONGENITAL_ANOMALY_PATH := "data/Congenital Anomaly.csv".

(** What [pd.read_csv(filepath, header=None)] finds at a path: no file
    ([FileNotFoundError]), a file it cannot read or parse (any other
    exception), or the cells of the first column, [None] for a NaN cell. *)
Inductive csv_source :=
  | FileMissing
  | FileUnreadable (msg : string)
  | FileRows (first_column : list (option string)).

(** [set(term.lower().strip() for term in df[0].dropna())], with
    [except FileNotFoundError: return set()]. *)
Definition load_terms (src : csv_source) : outcome (gset string) :=
  match src with
  | FileMissing => Ok ∅
  | FileUnreadable msg => Err PyOtherError msg
  | FileRows cells => Ok (list_to_set (map (fun term => strip (lower term)) (omap id cells)))
  end.

Definition load_ae_terms_from_csv (fs : string -> csv_source)
    : outcome (gset string * gset string * gset string) :=
  match load_terms (fs MEDICALLY_SIGNIFICANT_PATH) with
  | Err k m => Err k m
  | Ok medically_significant_terms =>
  match load_terms (fs SIGNIFICANT_DISABILITY_PATH) with
  | Err k m => Err k m
  | Ok significant_disability_terms =>
  match load_terms (fs CONGENITAL_ANOMALY_PATH) with
  | Err k m => Err k m
  | Ok congenital_anomaly_terms =>
      Ok (medically_significant_terms, significant_disability_terms, congenital_anomaly_terms)
  end end end.

(** ** [safe_json_loads] *)

(** [re.sub(r'```(json)?|```', '', text)]: left to right, the longer
    alternative first.  [fuel] is the length of the input. *)
Fixpoint remove_fences_go (fuel : nat) (s : string) : string :=
  match fuel with
  | O => s
  | S fuel' =>
      match s with
      | EmptyString => EmptyString
      | String c r =>
          if String.prefix "```json" s then remove_fences_go fuel' (substring 7 (length s) s)
          else if String.prefix "```" s then remove_fences_go fuel' (substring 3 (length s) s)
          else String c (remove_fences_go fuel' r)
      end
  end.

Definition remove_fences (s : string) : string := remove_fences_go (length s) s.

(** The longest prefix of [s] that ends with ['}'], if any. *)
Fixpoint upto_last_close (s : string) : option string :=
  match s with
  | EmptyString => None
  | String c r =>
      match upto_last_close r with
      | Some p => Some (String c p)
      | None => if Ascii.eqb c "}"%char then Some (String c EmptyString) else None
      end
  end.

(** [re.search(r'\{.*\}', t, re.DOTALL)] then [.group(0)]: from the first
    ['{'] to the last ['}'] after it; [None] when the search finds nothing
    (the [.group] call then raises). *)
Fixpoint bracket_extract (t : string) : option string :=
  match t with
  | EmptyString => None
  | String c r =>
      if Ascii.eqb c "{"%char then option_map (String c) (upto_last_close r)
      else bracket_extract r
  end.

(** Event entries as the extraction oracle returns them in
    [Adverse_Events]: [Term] may be absent ([None]); [Severity] may be
    absent, [null] or a string. *)
Inductive severity_field := SevAbsent | SevNull | SevStr (s : string).

Record oracle_event := mk_oracle_event {
  oe_term : option string;
  oe_severity : severity_field
}.

(** What a successful parse yields, as far as [extract_medical_information]
    inspects it: a dict holding [Adverse_Events], or anything else. *)
Inductive parsed :=
  | PAdverseEvents (entries : list oracle_event)
  | POther.

Section Pipeline.

(** The corpus sets loaded at start-up. *)
Variables medically_significant_terms significant_disability_terms
  congenital_anomaly_terms : gset string.

(** The external collaborators: [json.loads] and [eval] as partial parsers
    ([None] when they raise), the diagnosis call [call_diagnostic_ollama]
    (which already answers [""] on every failure) and the event call
    [call_ollama] ([None] when it raises after its retries). *)
Variable json_loads : string -> option parsed.
Variable py_eval : string -> option parsed.
Variable call_diagnostic_ollama : string -> string.
Variable call_ollama : string -> option string.

(** The three parsing strategies, tried in order, on the cleaned text. *)
Definition parsing_strategies : list (string -> option parsed) :=
  [json_loads;
   (fun t => match bracket_extract t with Some b => json_loads b | None => None end);
   py_eval].

Fixpoint first_success (strategies : list (string -> option parsed)) (t : string)
    : outcome parsed :=
  match strategies with
  | [] => Err PyValueError "Could not parse JSON after trying multiple strategies"
  | strategy :: rest =>
      match strategy t with
      | Some v => Ok v
      | None => first_success rest t
      end
  end.

Definition safe_json_loads (text : string) : outcome parsed :=
  let text := strip (remove_fences (strip text)) in
  first_success parsing_strategies text.

(** [diagnosed_condition.split(',')] *)
Fixpoint split_comma (s : string) : list string :=
  match s with
  | EmptyString => [EmptyString]
  | String c r =>
      match split_comma r with
      | [] => [String c EmptyString]
      | first :: rest =>
          if Ascii.eqb c ","%char then EmptyString :: first :: rest
          else String c first :: rest
      end
  end.

Definition diagnosis_events (diagnosed_condition : string) : list event :=
  if contains "," diagnosed_condition then
    map (fun condition => mk_event condition (Some "To be determined") true)
      (filter (fun condition => negb (String.eqb condition ""))
         (map strip (split_comma diagnosed_condition)))
  else [mk_event (strip diagnosed_condition) (Some "To be determined") true].

(** [event.get("Severity", "None of the above")] *)
Definition event_severity (f : severity_field) : option string :=
  match f with
  | SevAbsent => Some SEV_NONE
  | SevNull => None
  | SevStr s => Some s
  end.

(** The loop over [extracted_info["Adverse_Events"]] with its set
    [seen_terms] of lowercased, trimmed terms. *)
Fixpoint dedup_events (seen_terms : gset string) (entries : list oracle_event) : list event :=
  match entries with
  | [] => []
  | entry :: rest =>
      let event_term := strip (default "" (oe_term entry)) in
      if String.eqb event_term "" then dedup_events seen_terms rest else
      let term_lower := strip (lower event_term) in
      if bool_decide (term_lower ∈ seen_terms) then dedup_events seen_terms rest
      else mk_event event_term (event_severity (oe_severity entry)) false
             :: dedup_events ({[term_lower]} ∪ seen_terms) rest
  end.

Definition extract_events (entries : list oracle_event) : list event :=
  firstn 5 (dedup_events ∅ entries).

(** The event the loop would build from one oracle entry, and the
    comparison key [event_term.lower().strip()] of an entry and of a built
    event. *)
Definition entry_event (entry : oracle_event) : event :=
  mk_event (strip (default "" (oe_term entry))) (event_severity (oe_severity entry)) false.

Definition entry_key (entry : oracle_event) : string :=
  strip (lower (strip (default "" (oe_term entry)))).

Definition event_key (ev : event) : string := strip (lower (Term ev)).

Definition extract_medical_information (text : string) : outcome (list event) :=
  let diagnosed_condition := call_diagnostic_ollama text in
  if negb (String.eqb (strip diagnosed_condition) "") then
    Ok (diagnosis_events diagnosed_condition)
  else
  match call_ollama text with
  | None => Err PyOtherError "Failed to get response from Ollama after multiple attempts"
  | Some response_text =>
      match safe_json_loads response_text with
      | Err k m => Err k m
      | Ok POther => Err PyValueError "Invalid response format"
      | Ok (PAdverseEvents entries) => Ok (extract_events entries)
      end
  end.

(** ** Response assembly of [analyze_text] *)

(** [''] for [i == 1], [f'{i}'] otherwise. *)
Definition suffix (i : nat) : string := if (i =? 1)%nat then "" else pretty i.

Definition event_fields (i : nat) (ae_term final_severity seriousness : string)
    : list (string * string) :=
  [(String.append "Adverse_Event_Terms" (suffix i), ae_term);
   (String.append "Side_Effect_Severity" (suffix i), final_severity);
   (String.append "Side_Effect_Seriousness" (suffix i), seriousness)].

(** The three field names [event_fields] writes for index [i]. *)
Definition field_names (i : nat) : list string :=
  [String.append "Adverse_Event_Terms" (suffix i);
   String.append "Side_Effect_Severity" (suffix i);
   String.append "Side_Effect_Seriousness" (suffix i)].

(** [for i, event in enumerate(events, 1)]: the counter [i] advances on
    every event, also on one skipped by [continue]. *)
Fixpoint assemble_from (i : nat) (events : list event) : list (string * string) :=
  match events with
  | [] => []
  | ev :: rest =>
      match resolve_event medically_significant_terms significant_disability_terms
              congenital_anomaly_terms ev with
      | None => assemble_from (S i) rest
      | Some (ae_term, final_severity, ser) =>
          event_fields i ae_term final_severity ser ++ assemble_from (S i) rest
      end
  end.

Definition assemble (events : list event) : list (string * string) :=
  assemble_from 1 (firstn 5 events).

(** HTTP answers of the route: a JSON body with a status code. *)
Record response := mk_response { status : Z; body : list (string * string) }.

Definition analyze_text (request_text : string) : response :=
  let text := strip request_text in
  if String.eqb text "" then mk_response 400 [("error", "No text provided for analysis")] else
  match extract_medical_information text with
  | Err PyValueError msg => mk_response 400 [("error", msg)]
  | Err PyOtherError _ => mk_response 500 [("error", "Internal server error")]
  | Ok events => mk_response 200 (assemble events)
  end.

End Pipeline.

(** ** The calls to the Ollama service ([call_ollama],
    [call_diagnostic_ollama])

    What one iteration of the retry loop observes: [requests.post] or
    [response.json()] raised ([AttemptRaised]), or the service answered
    with a status code and the [response] field of its JSON body
    ([result.get('response', '')]).  [attempts k] is what the [k]-th
    iteration (from 0) observes. *)
Inductive http_attempt :=
  | AttemptRaised
  | AttemptReply (status_code : Z) (response_text : string).

(** An iteration whose reply the loop accepts: status 200 and a non-empty
    [response] text. *)
Definition usable (a : http_attempt) : option string :=
  match a with
  | AttemptReply code response_text =>
      if Z.eqb code 200 && negb (String.eqb response_text "") then Some response_text else None
  | AttemptRaised => None
  end.

(** [for attempt in range(max_retries)] of [call_ollama]: the iterations
    [attempt], [attempt + 1], ..., [fuel] of them. *)
Fixpoint call_ollama_loop (attempts : nat -> http_attempt) (attempt fuel : nat) : option string :=
  match fuel with
  | O => None
  | S fuel' =>
      match usable (attempts attempt) with
      | Some response_text => Some response_text
      | None => call_ollama_loop attempts (S attempt) fuel'
      end
  end.

(** [call_ollama(prompt, max_retries)]: the first usable reply, else
    [raise Exception(...)]. *)
Definition call_ollama_model (attempts : nat -> http_attempt) (max_retries : nat)
    : outcome string :=
  match call_ollama_loop attempts 0 max_retries with
  | Some response_text => Ok response_text
  | None => Err PyOtherError "Failed to get response from Ollama after multiple attempts"
  end.

Section DiagnosticCall.

(** [safe_json_loads(response_text).get("Diagnosed_Condition", "")]:
    [Some s] for the string the reply holds under that key ([""] when the
    key is absent), [None] when parsing or [.get] raises. *)
Variable diagnosed_value : string -> option string.

(** The loop of [call_diagnostic_ollama]: the first usable reply ends the
    call, with [""] when it cannot be parsed ([except: return ""]). *)
Fixpoint call_diagnostic_loop (attempts : nat -> http_attempt) (attempt fuel : nat) : string :=
  match fuel with
  | O => ""
  | S fuel' =>
      match usable (attempts attempt) with
      | Some response_text => default "" (diagnosed_value response_text)
      | None => call_diagnostic_loop attempts (S attempt) fuel'
      end
  end.

Definition call_diagnostic_ollama_model (attempts : nat -> http_attempt) (max_retries : nat)
    : string :=
  call_diagnostic_loop attempts 0 max_retries.

End DiagnosticCall.

(** ** The request handled by the [/analyze] route

    [request.is_json] false ([NotJson]), or a JSON object whose ["text"]
    entry is a string or absent ([None]). *)
Inductive analyze_request :=
  | NotJson
  | JsonObject (text : option string).

Definition analyze_route (medically_significant_terms significant_disability_terms
    congenital_anomaly_terms : gset string)
    (json_loads py_eval : string -> option parsed)
    (call_diagnostic_ollama : string -> string) (call_ollama : string -> option string)
    (req : analyze_request) : response :=
  match req with
  | NotJson => mk_response 400 [("error", "Request must be JSON")]
  | JsonObject text =>
      analyze_text medically_significant_terms significant_disability_terms
        congenital_anomaly_terms json_loads py_eval call_diagnostic_ollama call_ollama
        (default "" text)
  end.

(** * Properties *)

(** ** Lowercasing and stripping *)

Lemma is_space_lower_char (c : ascii) : is_space (lower_char c) = is_space c.
Proof. destruct c as [[] [] [] [] [] [] [] []]; reflexivity. Qed.

Lemma lower_empty (s : string) : String.eqb (lower s) "" = String.eqb s "".
Proof. destruct s; reflexivity. Qed.

Lemma lstrip_lower (s : string) : lstrip (lower s) = lower (lstrip s).
Proof.
  induction s as [|c r IH]; simpl; [reflexivity|].
  rewrite is_space_lower_char. destruct (is_space c); [exact IH | reflexivity].
Qed.

Lemma rstrip_lower (s : string) : rstrip (lower s) = lower (rstrip s).
Proof.
  induction s as [|c r IH]; simpl; [reflexivity|].
  rewrite IH, is_space_lower_char, lower_empty.
  destruct (is_space c && String.eqb (rstrip r) ""); reflexivity.
Qed.

Lemma strip_lower (s : string) : strip (lower s) = lower (strip s).
Proof. unfold strip. rewrite lstrip_lower. apply rstrip_lower. Qed.

Lemma rstrip_idem (s : string) : rstrip (rstrip s) = rstrip s.
Proof.
  induction s as [|c r IH]; simpl; [reflexivity|].
  destruct (is_space c && String.eqb (rstrip r) "") eqn:E; [reflexivity|].
  simpl. rewrite IH, E. reflexivity.
Qed.

Lemma lstrip_head (s : string) :
  lstrip s = EmptyString \/ exists c r, lstrip s = String c r /\ is_space c = false.
Proof.
  induction s as [|c r IH]; simpl; [auto|].
  destruct (is_space c) eqn:E; [exact IH|]. right. eauto.
Qed.

(** [rstrip] keeps a first character that is not a space. *)
Lemma rstrip_cons_nonspace (c : ascii) (r : string) :
  is_space c = false -> rstrip (String c r) = String c (rstrip r).
Proof. intros H. simpl. rewrite H. reflexivity. Qed.

Lemma strip_idem (s : string) : strip (strip s) = strip s.
Proof.
  unfold strip. destruct (lstrip_head s) as [E | (c & r & E & Hc)]; rewrite E.
  - reflexivity.
  - rewrite rstrip_cons_nonspace by exact Hc. cbn [lstrip]. rewrite Hc.
    rewrite rstrip_cons_nonspace by exact Hc. rewrite rstrip_idem. reflexivity.
Qed.

(** The key [ae_term.lower().strip()] of an already stripped term is its
    lowercase form. *)
Lemma strip_lower_strip (s : string) : strip (lower (strip s)) = lower (strip s).
Proof. rewrite strip_lower, strip_idem. reflexivity. Qed.

Lemma lower_nonempty (s : string) : s <> "" -> lower s <> "".
Proof. destruct s; simpl; congruence. Qed.

(** ** The per-event resolution *)

Section ResolverFacts.

Variables medically_significant_terms significant_disability_terms
  congenital_anomaly_terms : gset string.

Local Abbreviation check := (check_csv_severity medically_significant_terms
  significant_disability_terms congenital_anomaly_terms).
Local Abbreviation resolve := (resolve_event medically_significant_terms
  significant_disability_terms congenital_anomaly_terms).

(** Unfolding [resolve_event] on an event with a non-empty term. *)
Lemma resolve_event_nonempty (ev : event) :
  strip (Term ev) <> "" ->
  resolve ev =
  Some (strip (Term ev),
        default (if is_placeholder (Severity ev) then
                   (if Is_Diagnosis ev then
                      determine_adr_severity_for_diagnosed medically_significant_terms
                        significant_disability_terms congenital_anomaly_terms (strip (Term ev))
                    else SEV_NONE)
                 else default "" (Severity ev))
                (check (strip (Term ev))),
        seriousness (default (if is_placeholder (Severity ev) then
                   (if Is_Diagnosis ev then
                      determine_adr_severity_for_diagnosed medically_significant_terms
                        significant_disability_terms congenital_anomaly_terms (strip (Term ev))
                    else SEV_NONE)
                 else default "" (Severity ev))
                (check (strip (Term ev))))).
Proof.
  intros Hne. unfold resolve_event.
  destruct (String.eqb_spec (strip (Term ev)) "") as [E|_]; [contradiction|].
  destruct (check (strip (Term ev))); reflexivity.
Qed.

(** [check_csv_severity] on a stripped term tests the tiers on its
    lowercase form. *)
Lemma check_csv_severity_strip (t : string) :
  check (strip t) =
  if any_in (elements significant_disability_terms) (lower (strip t)) then Some SEV_DISABILITY
  else if any_in (elements congenital_anomaly_terms) (lower (strip t)) then Some SEV_CONGENITAL
  else if any_in (elements medically_significant_terms) (lower (strip t)) then Some SEV_MEDSIG
  else None.
Proof. unfold check_csv_severity. rewrite strip_lower_strip. reflexivity. Qed.

Lemma determine_strip (t : string) :
  determine_adr_severity_for_diagnosed medically_significant_terms
    significant_disability_terms congenital_anomaly_terms (strip t) =
  first_rule (severity_rules medically_significant_terms
    significant_disability_terms congenital_anomaly_terms) (lower (strip t)).
Proof. unfold determine_adr_severity_for_diagnosed. rewrite strip_lower_strip. reflexivity. Qed.

End ResolverFacts.

(** ** Claims on the resolver *)

Section ResolverClaims.

Variables medically_significant_terms significant_disability_terms
  congenital_anomaly_terms : gset string.

Local Abbreviation resolved_sev := (resolved_severity medically_significant_terms
  significant_disability_terms congenital_anomaly_terms).
Local Abbreviation resolve := (resolve_event medically_significant_terms
  significant_disability_terms congenital_anomaly_terms).

(** Unfolds [resolved_severity] on an event with a non-empty term and
    rewrites the tier tests to the lowercase term. *)
Local Ltac open_event Hne :=
  unfold resolved_severity; rewrite (resolve_event_nonempty _ _ _ _ Hne);
  cbn [option_map fst snd]; rewrite check_csv_severity_strip.

(** C1: whatever the provisional severity and the diagnosis flag, a
    candidate whose lowercased term contains (as a substring) an entry of
    the SignificantDisability corpus resolves to "Significant disability or
    incapacity". *)
Theorem significant_disability_match_wins (ev : event) :
  strip (Term ev) <> "" ->
  any_in (elements significant_disability_terms) (lower (strip (Term ev))) = true ->
  resolved_sev ev = Some SEV_DISABILITY.
Proof. intros Hne Hsd. open_event Hne. rewrite Hsd. reflexivity. Qed.

(** C7: a candidate matching the CongenitalAnomaly and MedicallySignificant
    tiers but not SignificantDisability resolves to "Congenital anomaly or
    birth defect" (tier order SignificantDisability, CongenitalAnomaly,
    MedicallySignificant). *)
Theorem congenital_before_medically_significant (ev : event) :
  strip (Term ev) <> "" ->
  any_in (elements significant_disability_terms) (lower (strip (Term ev))) = false ->
  any_in (elements congenital_anomaly_terms) (lower (strip (Term ev))) = true ->
  any_in (elements medically_significant_terms) (lower (strip (Term ev))) = true ->
  resolved_sev ev = Some SEV_CONGENITAL.
Proof. intros Hne Hsd Hca _. open_event Hne. rewrite Hsd, Hca. reflexivity. Qed.

(** C3: a non-diagnosis candidate with no corpus match and an empty
    ([null], blank) or placeholder ("To be determined") oracle severity
    resolves to "None of the above" and "Non-Serious"; no keyword rule is
    consulted, whatever the term contains. *)
Theorem non_diagnosis_placeholder_is_none (ev : event) :
  Is_Diagnosis ev = false ->
  strip (Term ev) <> "" ->
  any_in (elements significant_disability_terms) (lower (strip (Term ev))) = false ->
  any_in (elements congenital_anomaly_terms) (lower (strip (Term ev))) = false ->
  any_in (elements medically_significant_terms) (lower (strip (Term ev))) = false ->
  (Severity ev = None \/
   exists s, Severity ev = Some s /\ (strip s = "" \/ s = "To be determined")) ->
  resolve ev = Some (strip (Term ev), SEV_NONE, "Non-Serious").
Proof.
  intros Hdiag Hne Hsd Hca Hms Hsev.
  rewrite (resolve_event_nonempty _ _ _ _ Hne), check_csv_severity_strip.
  rewrite Hsd, Hca, Hms, Hdiag.
  assert (Hp : is_placeholder (Severity ev) = true).
  { destruct Hsev as [-> | (s & -> & [Hs | ->])]; [reflexivity| |reflexivity].
    simpl. rewrite Hs. apply orb_true_iff. left. apply orb_true_iff. right. reflexivity. }
  rewrite Hp. reflexivity.
Qed.

End ResolverClaims.

(** C6: over the seven severity values, the derived seriousness is
    "Non-Serious" exactly for "None of the above" and "Serious" for the six
    others. *)
Theorem seriousness_non_serious_iff_none (s : severity) :
  (seriousness (severity_string s) = "Non-Serious" <-> s = NoneOfTheAbove) /\
  (seriousness (severity_string s) = "Serious" <-> s <> NoneOfTheAbove).
Proof. destruct s; split; split; cbv; congruence. Qed.

Section EscalationClaims.

Variables medically_significant_terms significant_disability_terms
  congenital_anomaly_terms : gset string.

Local Abbreviation resolved_sev := (resolved_severity medically_significant_terms
  significant_disability_terms congenital_anomaly_terms).
Local Abbreviation resolve := (resolve_event medically_significant_terms
  significant_disability_terms congenital_anomaly_terms).

Lemma any_in_app (l1 l2 : list string) (s : string) :
  any_in (app l1 l2) s = any_in l1 s || any_in l2 s.
Proof. unfold any_in. apply existsb_app. Qed.

Lemma seriousness_outside_priority (s : string) :
  ~ In s severity_priority -> seriousness s = "Non-Serious".
Proof.
  intros Hout. unfold seriousness.
  destruct (existsb (String.eqb s) (removelast severity_priority)) eqn:E; [|reflexivity].
  exfalso. apply existsb_exists in E as (x & Hin & Heq).
  apply String.eqb_eq in Heq. subst x. apply Hout.
  simpl in Hin |- *. tauto.
Qed.

(** C2 (as amended): a diagnosis-flagged candidate (provisional severity
    "To be determined", as the diagnosis path creates it) whose lowercased
    term matches no corpus tier, contains none of the code's Fatal keywords
    (which include "fatal" and "demise") nor any LifeThreatening keyword,
    and contains one of "hospitalization", "hospital", "admitted",
    "admission", "emergency room", resolves to Hospitalization. *)
Theorem diagnosed_hospitalization_keyword (ev : event) :
  Is_Diagnosis ev = true ->
  Severity ev = Some "To be determined" ->
  strip (Term ev) <> "" ->
  any_in (elements significant_disability_terms) (lower (strip (Term ev))) = false ->
  any_in (elements congenital_anomaly_terms) (lower (strip (Term ev))) = false ->
  any_in (elements medically_significant_terms) (lower (strip (Term ev))) = false ->
  any_in ["death"; "fatal"; "mortality"; "died"; "passed away"; "deceased"; "expired"; "demise"]
    (lower (strip (Term ev))) = false ->
  any_in ["life-threatening"; "ventilator"; "emergency intervention"; "critical condition";
          "near death"; "almost died"; "intensive care"] (lower (strip (Term ev))) = false ->
  any_in ["hospitalization"; "hospital"; "admitted"; "admission"; "emergency room"]
    (lower (strip (Term ev))) = true ->
  resolved_sev ev = Some SEV_HOSP.
Proof.
  intros Hdiag Hsev Hne Hsd Hca Hms Hfatal Hlife Hhosp.
  unfold resolved_severity. rewrite (resolve_event_nonempty _ _ _ _ Hne).
  cbn [option_map fst snd]. rewrite check_csv_severity_strip, Hsd, Hca, Hms.
  rewrite Hsev, Hdiag. cbn [is_placeholder default].
  change (String.eqb "To be determined" "" || String.eqb (strip "To be determined") ""
          || String.eqb "To be determined" "To be determined") with true.
  rewrite determine_strip. unfold severity_rules. cbn [first_rule].
  rewrite Hfatal, Hlife.
  change ["hospitalization"; "hospital"; "admitted"; "admission"; "emergency room"; "ER visit"]
    with (app ["hospitalization"; "hospital"; "admitted"; "admission"; "emergency room"] ["ER visit"]).
  rewrite any_in_app, Hhosp. reflexivity.
Qed.

(** C10 (as amended): for a non-diagnosis candidate with no corpus match,
    an oracle severity string outside the seven values that is not blank
    and not the placeholder "To be determined" is emitted verbatim, with
    seriousness "Non-Serious". *)
Theorem unrecognised_severity_emitted_verbatim (ev : event) (s : string) :
  Is_Diagnosis ev = false ->
  strip (Term ev) <> "" ->
  any_in (elements significant_disability_terms) (lower (strip (Term ev))) = false ->
  any_in (elements congenital_anomaly_terms) (lower (strip (Term ev))) = false ->
  any_in (elements medically_significant_terms) (lower (strip (Term ev))) = false ->
  Severity ev = Some s ->
  strip s <> "" ->
  s <> "To be determined" ->
  ~ In s severity_priority ->
  resolve ev = Some (strip (Term ev), s, "Non-Serious").
Proof.
  intros Hdiag Hne Hsd Hca Hms Hsev Hs Htbd Hout.
  rewrite (resolve_event_nonempty _ _ _ _ Hne), check_csv_severity_strip.
  rewrite Hsd, Hca, Hms, Hsev.
  assert (Hp : is_placeholder (Some s) = false).
  { cbn [is_placeholder].
    destruct (String.eqb_spec s "") as [->|_]; [contradiction|].
    destruct (String.eqb_spec (strip s) "") as [E|_]; [contradiction|].
    destruct (String.eqb_spec s "To be determined"); [contradiction|reflexivity]. }
  rewrite Hp. cbn [default id]. rewrite (seriousness_outside_priority s Hout). reflexivity.
Qed.

End EscalationClaims.

(** ** De-duplication of the extracted events *)

Lemma dedup_events_sublist (seen : gset string) (entries : list oracle_event) :
  (dedup_events seen entries) `sublist_of` (map entry_event entries).
Proof.
  revert seen. induction entries as [|entry rest IH]; intros seen; simpl.
  - constructor.
  - destruct (String.eqb _ ""); [apply sublist_cons, IH|].
    case_bool_decide; [apply sublist_cons, IH|].
    apply sublist_skip, IH.
Qed.

(** Every kept event has a non-empty key outside [seen], and the kept keys
    are pairwise distinct. *)
Lemma dedup_events_keys (seen : gset string) (entries : list oracle_event) :
  Forall (fun ev => (event_key ev ∉ seen) /\ (event_key ev <> "")) (dedup_events seen entries) /\
  NoDup (map event_key (dedup_events seen entries)).
Proof.
  revert seen. induction entries as [|entry rest IH]; intros seen; simpl.
  - split; constructor.
  - destruct (String.eqb_spec (strip (default "" (oe_term entry))) "") as [_|Hne];
      [apply IH|].
    case_bool_decide as Hin; [apply IH|].
    destruct (IH ({[strip (lower (strip (default "" (oe_term entry))))]} ∪ seen)) as [Hall Hnd].
    unfold event_key at 1 2 3. cbn [Term map].
    split.
    + constructor.
      * split; [exact Hin|]. cbn [Term]. rewrite strip_lower_strip. by apply lower_nonempty.
      * eapply Forall_impl; [exact Hall|]. intros ev [Hev Hne']. split; [set_solver|exact Hne'].
    + constructor; [|exact Hnd].
      intros Hel. apply list_elem_of_In, in_map_iff in Hel as (ev & Hk & Hev).
      apply list_elem_of_In in Hev.
      rewrite Forall_forall in Hall. destruct (Hall ev Hev) as [Hnot _].
      apply Hnot. change (event_key ev) with (strip (lower (Term ev))). rewrite Hk. cbn [Term]. set_solver.
Qed.

(** The kept event for a key is built from the first entry with that key. *)
Lemma dedup_events_first_seen (seen : gset string) (entries : list oracle_event) (ev : event) :
  ev ∈ dedup_events seen entries ->
  exists j entry, entries !! j = Some entry /\ entry_event entry = ev /\
    forall j' entry', j' < j -> entries !! j' = Some entry' -> entry_key entry' <> event_key ev.
Proof.
  revert seen. induction entries as [|entry rest IH]; intros seen Hel; simpl in Hel.
  - by apply elem_of_nil in Hel.
  - (* the head entry is skipped or kept; an event of the tail keeps the
       index of its first entry, shifted by one *)
    assert (Hshift : forall seen',
      (forall ev', ev' ∈ dedup_events seen' rest -> entry_key entry <> event_key ev') ->
      ev ∈ dedup_events seen' rest ->
      exists j entry0, (entry :: rest) !! j = Some entry0 /\ entry_event entry0 = ev /\
        forall j' entry', j' < j -> (entry :: rest) !! j' = Some entry' ->
          entry_key entry' <> event_key ev).
    { intros seen' Hhead Hel'.
      destruct (IH seen' Hel') as (j & entry0 & Hj & Hev & Hfirst).
      exists (S j), entry0. split; [exact Hj|]. split; [exact Hev|].
      intros [|j''] entry' Hlt Hj'.
      - injection Hj' as <-. by apply Hhead.
      - apply (Hfirst j'' entry'); [lia|exact Hj']. }
    destruct (String.eqb_spec (strip (default "" (oe_term entry))) "") as [He|Hne].
    + apply (Hshift seen); [|exact Hel].
      intros ev' Hev'. unfold entry_key. rewrite He.
      destruct (dedup_events_keys seen rest) as [Hall _].
      rewrite Forall_forall in Hall.
      destruct (Hall ev' Hev') as [_ Hne']. change (strip (lower "")) with "". congruence.
    + case_bool_decide as Hin.
      * apply (Hshift seen); [|exact Hel].
        intros ev' Hev'. destruct (dedup_events_keys seen rest) as [Hall _].
        rewrite Forall_forall in Hall.
        destruct (Hall ev' Hev') as [Hnot _]. unfold entry_key. intros Heq.
        apply Hnot. rewrite <- Heq. exact Hin.
      * apply elem_of_cons in Hel as [-> | Hel].
        -- exists 0, entry. split; [reflexivity|]. split; [reflexivity|]. intros j' ? Hlt. lia.
        -- apply (Hshift ({[strip (lower (strip (default "" (oe_term entry))))]} ∪ seen)); [|exact Hel].
           intros ev' Hev'.
           destruct (dedup_events_keys
             ({[strip (lower (strip (default "" (oe_term entry))))]} ∪ seen) rest) as [Hall _].
           rewrite Forall_forall in Hall.
           destruct (Hall ev' Hev') as [Hnot _]. unfold entry_key. intros Heq.
           apply Hnot. rewrite <- Heq. set_solver.
Qed.

(** C4: the de-duplicated list built from the oracle's entries has at
    most 5 events and at most as many as the input, no two events with the
    same key (lowercased, trimmed term), each event built from the first
    entry carrying its key (the term keeps that entry's casing, trimmed),
    and the events in the input's relative order. *)
Theorem extract_events_dedup (entries : list oracle_event) :
  List.length (extract_events entries) <= 5 /\
  List.length (extract_events entries) <= List.length entries /\
  NoDup (map event_key (extract_events entries)) /\
  (forall ev, ev ∈ extract_events entries ->
     exists j entry, entries !! j = Some entry /\ entry_event entry = ev /\
       forall j' entry', j' < j -> entries !! j' = Some entry' -> entry_key entry' <> event_key ev) /\
  (extract_events entries) `sublist_of` (map entry_event entries).
Proof.
  unfold extract_events.
  pose proof (dedup_events_sublist ∅ entries) as Hsub.
  assert (Htake : take 5 (dedup_events ∅ entries) `sublist_of` map entry_event entries).
  { etrans; [apply sublist_take|exact Hsub]. }
  split; [rewrite length_take; lia|].
  split; [apply sublist_length in Htake; rewrite length_map in Htake; exact Htake|].
  split.
  { rewrite <- firstn_map. eapply sublist_NoDup; [apply (dedup_events_keys ∅ entries)|].
    apply sublist_take. }
  split; [|exact Htake].
  intros ev Hev. apply (dedup_events_first_seen ∅).
  apply elem_of_take in Hev as (i & Hi & _). eapply list_elem_of_lookup_2, Hi.
Qed.

(** ** Response assembly *)

Section AssemblyFacts.

Variables medically_significant_terms significant_disability_terms
  congenital_anomaly_terms : gset string.
Variable json_loads : string -> option parsed.
Variable py_eval : string -> option parsed.
Variable call_diagnostic_ollama : string -> string.
Variable call_ollama : string -> option string.

Local Abbreviation assemble_ := (assemble medically_significant_terms
  significant_disability_terms congenital_anomaly_terms).
Local Abbreviation extract := (extract_medical_information json_loads py_eval
  call_diagnostic_ollama call_ollama).

Lemma strip_empty_lower (t : string) : strip (lower t) <> "" -> strip t <> "".
Proof. rewrite strip_lower. intros H E. apply H. rewrite E. reflexivity. Qed.

Lemma diagnosis_events_nonempty (d : string) :
  strip d <> "" -> Forall (fun ev => strip (Term ev) <> "") (diagnosis_events d).
Proof.
  intros Hd. unfold diagnosis_events. destruct (contains "," d).
  - apply Forall_forall. intros ev Hev.
    apply list_elem_of_fmap in Hev as (c & -> & Hc).
    apply list_elem_of_filter in Hc as [Hne Hc].
    apply list_elem_of_fmap in Hc as (x & -> & _). cbn [Term].
    rewrite strip_idem. destruct (String.eqb_spec (strip x) ""); simpl in Hne; congruence.
  - constructor; [|constructor]. cbn [Term]. rewrite strip_idem. exact Hd.
Qed.

(** Every event list the extraction step hands to the assembler has only
    non-empty terms. *)
Lemma extract_terms_nonempty (text : string) (events : list event) :
  extract text = Ok events -> Forall (fun ev => strip (Term ev) <> "") events.
Proof.
  unfold extract_medical_information.
  destruct (String.eqb_spec (strip (call_diagnostic_ollama text)) "") as [_|Hd]; simpl.
  - destruct (call_ollama text) as [reply|]; [|discriminate].
    destruct (safe_json_loads json_loads py_eval reply) as [[entries|]|]; try discriminate.
    intros [= <-]. unfold extract_events.
    destruct (dedup_events_keys ∅ entries) as [Hall _].
    apply Forall_forall. intros ev Hev.
    apply elem_of_take in Hev as (i & Hi & _). apply list_elem_of_lookup_2 in Hi.
    rewrite Forall_forall in Hall. destruct (Hall ev Hi) as [_ Hne].
    apply strip_empty_lower. exact Hne.
  - intros [= <-]. apply diagnosis_events_nonempty. exact Hd.
Qed.

Lemma assemble_from_nonempty (i : nat) (events : list event) :
  Forall (fun ev => strip (Term ev) <> "") events ->
  map fst (assemble_from medically_significant_terms significant_disability_terms
             congenital_anomaly_terms i events) =
  List.concat (map field_names (seq i (List.length events))).
Proof.
  revert i. induction events as [|ev rest IH]; intros i Hall; [reflexivity|].
  inversion Hall as [|? ? Hev Hrest]; subst.
  cbn [assemble_from List.length seq map List.concat].
  rewrite (resolve_event_nonempty _ _ _ _ Hev).
  rewrite map_app, IH by exact Hrest. reflexivity.
Qed.

End AssemblyFacts.

Section PipelineClaims.

Variables medically_significant_terms significant_disability_terms
  congenital_anomaly_terms : gset string.
Variable json_loads : string -> option parsed.
Variable py_eval : string -> option parsed.
Variable call_diagnostic_ollama : string -> string.
Variable call_ollama : string -> option string.

Local Abbreviation extract := (extract_medical_information json_loads py_eval
  call_diagnostic_ollama call_ollama).
Local Abbreviation analyze := (analyze_text medically_significant_terms
  significant_disability_terms congenital_anomaly_terms json_loads py_eval
  call_diagnostic_ollama call_ollama).

Lemma filter_surviving_all (events : list event) :
  Forall (fun ev => strip (Term ev) <> "") events ->
  List.filter (fun ev => negb (String.eqb (strip (Term ev)) "")) events = events.
Proof.
  induction events as [|ev rest IH]; intros Hall; [reflexivity|].
  inversion Hall as [|? ? Hev Hrest]; subst. cbn [List.filter].
  destruct (String.eqb_spec (strip (Term ev)) "") as [E|_]; [contradiction|].
  rewrite IH by exact Hrest. reflexivity.
Qed.

(** C5: every successful response of [analyze_text] is assembled from the
    event list of the extraction step, and its field names are numbered
    over the surviving records (the first five with a non-empty term): the
    unsuffixed names for the first, then the suffixes 2, 3, ... without
    gaps.  No record is skipped there, since neither extraction path
    yields an empty term. *)
Theorem extracted_events_numbered_without_gaps (text : string)
    (body : list (string * string)) :
  analyze text = mk_response 200 body ->
  exists events,
    extract (strip text) = Ok events /\
    body = assemble medically_significant_terms significant_disability_terms
             congenital_anomaly_terms events /\
    map fst body =
    List.concat (map field_names (seq 1 (List.length
      (List.filter (fun ev => negb (String.eqb (strip (Term ev)) "")) (take 5 events))))).
Proof.
  unfold analyze_text. destruct (String.eqb (strip text) ""); [discriminate|].
  destruct (extract (strip text)) as [events|[] msg] eqn:Hx; try discriminate.
  intros [= <-]. exists events. split; [reflexivity|]. split; [reflexivity|].
  pose proof (extract_terms_nonempty json_loads py_eval call_diagnostic_ollama
                call_ollama (strip text) events Hx) as Hall.
  assert (Htake : Forall (fun ev => strip (Term ev) <> "") (take 5 events)).
  { apply Forall_forall. intros ev Hev. rewrite Forall_forall in Hall.
    apply Hall. apply elem_of_take in Hev as (i & Hi & _).
    eapply list_elem_of_lookup_2, Hi. }
  rewrite filter_surviving_all by exact Htake.
  unfold assemble. apply assemble_from_nonempty, Htake.
Qed.

(** C8: when the diagnosis call yields nothing and none of the three
    parsing strategies (strict [json.loads], bracket extraction then
    [json.loads], [eval]) accepts the cleaned oracle reply, the extraction
    raises [ValueError] and the request fails with status 400 and an error
    body only: no adverse-event field, no empty default list. *)
Theorem unparseable_reply_fails_request (text reply : string) :
  strip text <> "" ->
  strip (call_diagnostic_ollama (strip text)) = "" ->
  call_ollama (strip text) = Some reply ->
  json_loads (strip (remove_fences (strip reply))) = None ->
  (forall b, bracket_extract (strip (remove_fences (strip reply))) = Some b ->
     json_loads b = None) ->
  py_eval (strip (remove_fences (strip reply))) = None ->
  extract (strip text) =
    Err PyValueError "Could not parse JSON after trying multiple strategies" /\
  analyze text =
    mk_response 400 [("error", "Could not parse JSON after trying multiple strategies")].
Proof.
  intros Hne Hdiag Hcall Hjson Hbracket Heval.
  assert (Hx : extract (strip text) =
    Err PyValueError "Could not parse JSON after trying multiple strategies").
  { unfold extract_medical_information. rewrite Hdiag, Hcall. cbn [String.eqb negb].
    unfold safe_json_loads, parsing_strategies. cbn [first_success].
    rewrite Hjson, Heval.
    destruct (bracket_extract (strip (remove_fences (strip reply)))) as [b|] eqn:Eb.
    - rewrite (Hbracket b eq_refl). reflexivity.
    - reflexivity. }
  split; [exact Hx|].
  unfold analyze_text. destruct (String.eqb_spec (strip text) "") as [E|_]; [contradiction|].
  rewrite Hx. reflexivity.
Qed.

End PipelineClaims.

(** ** Corpus loading *)

(** C9 (as amended): loading succeeds exactly when none of the three
    sources raises a read error other than "file not found"; a missing file
    gives an empty set for its tier, also when all three are missing, and a
    single unreadable or malformed source is enough to make loading (and
    so start-up) fail. *)
Theorem load_ae_terms_outcome (fs : string -> csv_source) :
  (forall ms sd ca, load_ae_terms_from_csv fs = Ok (ms, sd, ca) ->
     (fs MEDICALLY_SIGNIFICANT_PATH = FileMissing -> ms = ∅) /\
     (fs SIGNIFICANT_DISABILITY_PATH = FileMissing -> sd = ∅) /\
     (fs CONGENITAL_ANOMALY_PATH = FileMissing -> ca = ∅)) /\
  ((exists terms, load_ae_terms_from_csv fs = Ok terms) <->
   forall p msg, p ∈ [MEDICALLY_SIGNIFICANT_PATH; SIGNIFICANT_DISABILITY_PATH;
                      CONGENITAL_ANOMALY_PATH] -> fs p <> FileUnreadable msg).
Proof.
  unfold load_ae_terms_from_csv.
  destruct (fs MEDICALLY_SIGNIFICANT_PATH) as [|m1|c1] eqn:E1;
  destruct (fs SIGNIFICANT_DISABILITY_PATH) as [|m2|c2] eqn:E2;
  destruct (fs CONGENITAL_ANOMALY_PATH) as [|m3|c3] eqn:E3;
  cbn [load_terms];
  (split;
   [ intros ms sd ca H; injection H as <- <- <-;
     repeat split; intros Hm; discriminate Hm || reflexivity
   | split;
     [ intros _ p msg Hp; rewrite !elem_of_cons, elem_of_nil in Hp;
       destruct Hp as [-> | [-> | [-> | []]]]; congruence
     | intros Hall ]]) ||
  (split;
   [ intros ms sd ca H; discriminate H
   | split;
     [ intros [terms H]; discriminate H
     | intros Hall; exfalso ]]).
  all: first
    [ eexists; reflexivity
    | apply (Hall MEDICALLY_SIGNIFICANT_PATH m1); [set_solver|exact E1]
    | apply (Hall SIGNIFICANT_DISABILITY_PATH m2); [set_solver|exact E2]
    | apply (Hall CONGENITAL_ANOMALY_PATH m3); [set_solver|exact E3] ].
Qed.

(** * Counterexamples *)

(** C2: the keyword "ER visit" is compared with the lowercased term, so a
    diagnosed "er visit" is not escalated to Hospitalization; and a term
    with the code's extra Fatal keyword "fatal" is escalated to Fatal. Both
    terms contain "er visit" and none of the keywords died, passed away,
    death, deceased, expired, mortality or the LifeThreatening ones, and
    match no (empty) corpus tier. *)
Lemma er_visit_not_hospitalization :
  any_in ["er visit"] (lower (strip "er visit")) = true /\
  any_in ["died"; "passed away"; "death"; "deceased"; "expired"; "mortality";
          "life-threatening"; "ventilator"; "emergency intervention"; "critical condition";
          "near death"; "almost died"; "intensive care"] (lower (strip "er visit")) = false /\
  resolved_severity ∅ ∅ ∅ (mk_event "er visit" (Some "To be determined") true)
    = Some SEV_NONE /\
  any_in ["er visit"] (lower (strip "fatal er visit")) = true /\
  any_in ["died"; "passed away"; "death"; "deceased"; "expired"; "mortality";
          "life-threatening"; "ventilator"; "emergency intervention"; "critical condition";
          "near death"; "almost died"; "intensive care"] (lower (strip "fatal er visit")) = false /\
  resolved_severity ∅ ∅ ∅ (mk_event "fatal er visit" (Some "To be determined") true)
    = Some SEV_FATAL.
Proof. vm_compute. repeat split. Qed.

(** C9: with all three corpus files missing, loading does not fail; it
    returns three empty tiers. *)
Lemma all_corpus_files_missing_loads :
  load_ae_terms_from_csv (fun _ => FileMissing) = Ok (∅, ∅, ∅).
Proof. reflexivity. Qed.

(** C10: the placeholder "To be determined" is a non-empty string outside
    the seven values, yet an oracle severity equal to it is replaced by
    "None of the above" rather than emitted verbatim; so is a blank one. *)
Lemma placeholder_severity_not_verbatim :
  ~ In "To be determined" severity_priority /\
  resolved_severity ∅ ∅ ∅ (mk_event "rash" (Some "To be determined") false) = Some SEV_NONE /\
  ~ In " " severity_priority /\
  resolved_severity ∅ ∅ ∅ (mk_event "rash" (Some " ") false) = Some SEV_NONE.
Proof.
  split; [cbv; intuition discriminate|].
  split; [vm_compute; reflexivity|].
  split; [cbv; intuition discriminate|].
  vm_compute; reflexivity.
Qed.

(** * Witnesses *)

Lemma significant_disability_match_wins_witness :
  strip (Term (mk_event "Partial Paralysis" (Some "Severe") false)) <> "" /\
  any_in (elements ({["paralysis"]} : gset string))
    (lower (strip (Term (mk_event "Partial Paralysis" (Some "Severe") false)))) = true /\
  resolved_severity ∅ {["paralysis"]} ∅ (mk_event "Partial Paralysis" (Some "Severe") false)
    = Some SEV_DISABILITY.
Proof.
  assert (H1 : strip (Term (mk_event "Partial Paralysis" (Some "Severe") false)) <> "")
    by (vm_compute; discriminate).
  assert (H2 : any_in (elements ({["paralysis"]} : gset string))
    (lower (strip (Term (mk_event "Partial Paralysis" (Some "Severe") false)))) = true)
    by (vm_compute; reflexivity).
  split; [exact H1|]. split; [exact H2|].
  exact (significant_disability_match_wins ∅ {["paralysis"]} ∅ _ H1 H2).
Defined.

Lemma congenital_before_medically_significant_witness :
  resolved_severity {["bifida"]} ∅ {["spina bifida"]}
    (mk_event "Spina Bifida" (Some "Life threatening") false) = Some SEV_CONGENITAL.
Proof.
  apply (congenital_before_medically_significant {["bifida"]} ∅ {["spina bifida"]});
    vm_compute; first [reflexivity | discriminate].
Defined.

Lemma non_diagnosis_placeholder_is_none_witness :
  resolve_event ∅ ∅ ∅ (mk_event "patient died" None false) =
  Some ("patient died", SEV_NONE, "Non-Serious").
Proof.
  apply (non_diagnosis_placeholder_is_none ∅ ∅ ∅ (mk_event "patient died" None false));
    [reflexivity | vm_compute; discriminate | vm_compute; reflexivity
    | vm_compute; reflexivity | vm_compute; reflexivity | left; reflexivity].
Defined.

Lemma diagnosed_hospitalization_keyword_witness :
  resolved_severity ∅ ∅ ∅ (mk_event "Admitted to hospital" (Some "To be determined") true)
    = Some SEV_HOSP.
Proof.
  apply (diagnosed_hospitalization_keyword ∅ ∅ ∅);
    vm_compute; first [reflexivity | discriminate].
Defined.

Lemma unrecognised_severity_emitted_verbatim_witness :
  resolve_event ∅ ∅ ∅ (mk_event "rash" (Some "Severe") false) =
  Some ("rash", "Severe", "Non-Serious").
Proof.
  apply (unrecognised_severity_emitted_verbatim ∅ ∅ ∅ (mk_event "rash" (Some "Severe") false));
    try (vm_compute; first [reflexivity | discriminate]).
  vm_compute. intuition discriminate.
Defined.

Lemma extracted_events_numbered_without_gaps_witness :
  let json_loads := fun _ : string => Some (PAdverseEvents
       [mk_oracle_event (Some "Nausea") (SevStr "None of the above");
        mk_oracle_event (Some "  ") SevAbsent;
        mk_oracle_event (Some "nausea ") SevNull;
        mk_oracle_event (Some "Rash") SevAbsent]) in
  let body := assemble ∅ ∅ ∅ [mk_event "Nausea" (Some "None of the above") false;
                              mk_event "Rash" (Some SEV_NONE) false] in
  analyze_text ∅ ∅ ∅ json_loads (fun _ => None) (fun _ => "") (fun _ => Some "{}")
    "Patient felt nausea" = mk_response 200 body /\
  exists events,
    extract_medical_information json_loads (fun _ => None) (fun _ => "") (fun _ => Some "{}")
      (strip "Patient felt nausea") = Ok events /\
    body = assemble ∅ ∅ ∅ events /\
    map fst body =
    List.concat (map field_names (seq 1 (List.length
      (List.filter (fun ev => negb (String.eqb (strip (Term ev)) "")) (take 5 events))))).
Proof.
  intros json_loads body.
  assert (H : analyze_text ∅ ∅ ∅ json_loads (fun _ => None) (fun _ => "")
                (fun _ => Some "{}") "Patient felt nausea" = mk_response 200 body)
    by (vm_compute; reflexivity).
  split; [exact H|].
  exact (extracted_events_numbered_without_gaps ∅ ∅ ∅ json_loads _ _ _ _ body H).
Defined.

Lemma unparseable_reply_fails_request_witness :
  analyze_text ∅ ∅ ∅ (fun _ => None) (fun _ => None) (fun _ => "")
    (fun _ => Some "```json Sorry, no events ```") "Patient had a rash" =
  mk_response 400 [("error", "Could not parse JSON after trying multiple strategies")].
Proof.
  apply (unparseable_reply_fails_request ∅ ∅ ∅ (fun _ => None) (fun _ => None) (fun _ => "")
    (fun _ => Some "```json Sorry, no events ```") "Patient had a rash"
    "```json Sorry, no events ```");
    first [vm_compute; discriminate | reflexivity | intros; reflexivity].
Defined.

(** * Further properties of [ime2.py] *)

(** ** The retry loops of the service calls *)

Lemma usable_some (a : http_attempt) (r : string) :
  usable a = Some r <-> a = AttemptReply 200 r /\ r <> "".
Proof.
  destruct a as [|code text]; simpl; [split; [discriminate|intros [? _]; discriminate]|].
  destruct (Z.eqb_spec code 200) as [->|Hc]; destruct (String.eqb_spec text "") as [->|Ht];
    simpl; split; intros H;
    first [ discriminate
          | injection H as <-; split; [reflexivity|assumption]
          | destruct H as [H1 H2]; injection H1; intros; subst; congruence ].
Qed.

Section RetryLoops.

Variable attempts : nat -> http_attempt.

Lemma call_ollama_loop_some (a0 n : nat) (r : string) :
  call_ollama_loop attempts a0 n = Some r <->
  exists i, a0 <= i < a0 + n /\ usable (attempts i) = Some r /\
    forall j, a0 <= j < i -> usable (attempts j) = None.
Proof.
  revert a0. induction n as [|n IH]; intros a0; simpl.
  - split; [discriminate|]. intros (i & Hi & _). lia.
  - destruct (usable (attempts a0)) as [r'|] eqn:E.
    + split.
      * intros [= <-]. exists a0. split; [lia|]. split; [exact E|]. intros j Hj. lia.
      * intros (i & Hi & Hr & Hfirst).
        destruct (decide (i = a0)) as [->|Hne]; [congruence|].
        rewrite (Hfirst a0) in E; [discriminate|lia].
    + rewrite IH. split.
      * intros (i & Hi & Hr & Hfirst). exists i. split; [lia|]. split; [exact Hr|].
        intros j Hj. destruct (decide (j = a0)) as [->|Hne]; [exact E|]. apply Hfirst. lia.
      * intros (i & Hi & Hr & Hfirst).
        destruct (decide (i = a0)) as [->|Hne]; [congruence|].
        exists i. split; [lia|]. split; [exact Hr|]. intros j Hj. apply Hfirst. lia.
Qed.

Lemma call_ollama_loop_none (a0 n : nat) :
  call_ollama_loop attempts a0 n = None <->
  forall j, a0 <= j < a0 + n -> usable (attempts j) = None.
Proof.
  revert a0. induction n as [|n IH]; intros a0; simpl.
  - split; [intros _ j Hj; lia|reflexivity].
  - destruct (usable (attempts a0)) as [r'|] eqn:E.
    + split; [discriminate|]. intros H. rewrite H in E; [discriminate|lia].
    + rewrite IH. split.
      * intros H j Hj. destruct (decide (j = a0)) as [->|Hne]; [exact E|]. apply H. lia.
      * intros H j Hj. apply H. lia.
Qed.

Lemma call_diagnostic_loop_first (diagnosed_value : string -> option string)
    (a0 n i : nat) (r : string) :
  a0 <= i < a0 + n -> usable (attempts i) = Some r ->
  (forall j, a0 <= j < i -> usable (attempts j) = None) ->
  call_diagnostic_loop diagnosed_value attempts a0 n = default "" (diagnosed_value r).
Proof.
  revert a0. induction n as [|n IH]; intros a0 Hi Hr Hfirst; simpl; [lia|].
  destruct (decide (i = a0)) as [->|Hne]; [rewrite Hr; reflexivity|].
  rewrite (Hfirst a0) by lia. apply IH; [lia|exact Hr|]. intros j Hj. apply Hfirst. lia.
Qed.

Lemma call_diagnostic_loop_none (diagnosed_value : string -> option string) (a0 n : nat) :
  (forall j, a0 <= j < a0 + n -> usable (attempts j) = None) ->
  call_diagnostic_loop diagnosed_value attempts a0 n = "".
Proof.
  revert a0. induction n as [|n IH]; intros a0 H; simpl; [reflexivity|].
  rewrite (H a0) by lia. apply IH. intros j Hj. apply H. lia.
Qed.

(** [call_ollama] returns the [response] text of the first of its
    [max_retries] attempts that gets status 200 with a non-empty text (so
    never an empty string, and no attempt after it is made); it raises
    exactly when none of the [max_retries] attempts does. *)
Theorem call_ollama_first_usable_reply (max_retries : nat) (r : string) :
  (call_ollama_model attempts max_retries = Ok r <->
   exists i, i < max_retries /\ attempts i = AttemptReply 200 r /\ r <> "" /\
     forall j, j < i -> usable (attempts j) = None) /\
  (call_ollama_model attempts max_retries =
     Err PyOtherError "Failed to get response from Ollama after multiple attempts" <->
   forall j, j < max_retries -> usable (attempts j) = None).
Proof.
  unfold call_ollama_model. split.
  - destruct (call_ollama_loop attempts 0 max_retries) as [r'|] eqn:E.
    + apply call_ollama_loop_some in E as (i & Hi & Hr & Hfirst).
      split.
      * intros [= <-]. apply usable_some in Hr as [Ha Hne].
        exists i. split; [lia|]. split; [exact Ha|]. split; [exact Hne|].
        intros j Hj. apply Hfirst. lia.
      * intros (i' & Hi' & Ha' & Hne' & Hfirst').
        assert (i = i') as <-.
        { destruct (decide (i < i')) as [Hlt|Hge].
          - rewrite Hfirst' in Hr; [discriminate|lia].
          - destruct (decide (i' < i)) as [Hlt'|Hge'].
            + exfalso.
              assert (Hu : usable (attempts i') = Some r) by (apply usable_some; auto).
              rewrite Hfirst in Hu; [discriminate|lia].
            + lia. }
        apply usable_some in Hr as [Ha _]. congruence.
    + split; [discriminate|]. intros (i & Hi & Ha & Hne & _).
      apply call_ollama_loop_none with (j := i) in E; [|lia].
      rewrite Ha in E. simpl in E. destruct (String.eqb_spec r ""); [contradiction|discriminate].
  - destruct (call_ollama_loop attempts 0 max_retries) as [r'|] eqn:E.
    + split; [discriminate|]. intros H.
      apply call_ollama_loop_some in E as (i & Hi & Hr & _). rewrite H in Hr; [discriminate|lia].
    + split; [|reflexivity]. intros _ j Hj.
      apply (proj1 (call_ollama_loop_none 0 max_retries) E). lia.
Qed.

(** [call_diagnostic_ollama] never raises: the first of its [max_retries]
    attempts that gets status 200 with a non-empty text decides the result,
    the parsed condition or [""] when that reply cannot be parsed (the
    remaining attempts are not made); with no such attempt it returns
    [""]. *)
Theorem call_diagnostic_first_usable_reply (diagnosed_value : string -> option string)
    (max_retries : nat) :
  (forall i r, i < max_retries -> attempts i = AttemptReply 200 r -> r <> "" ->
     (forall j, j < i -> usable (attempts j) = None) ->
     call_diagnostic_ollama_model diagnosed_value attempts max_retries =
       default "" (diagnosed_value r)) /\
  ((forall j, j < max_retries -> usable (attempts j) = None) ->
   call_diagnostic_ollama_model diagnosed_value attempts max_retries = "").
Proof.
  unfold call_diagnostic_ollama_model. split.
  - intros i r Hi Ha Hne Hfirst. apply (call_diagnostic_loop_first _ 0 max_retries i r).
    + lia.
    + apply usable_some. auto.
    + intros j Hj. apply Hfirst. lia.
  - intros H. apply call_diagnostic_loop_none. intros j Hj. apply H. lia.
Qed.

End RetryLoops.

(** ** The [/analyze] route *)

Section RouteFacts.

Variables medically_significant_terms significant_disability_terms
  congenital_anomaly_terms : gset string.
Variable json_loads : string -> option parsed.
Variable py_eval : string -> option parsed.
Variable call_diagnostic_ollama : string -> string.
Variable call_ollama : string -> option string.

Local Abbreviation route := (analyze_route medically_significant_terms
  significant_disability_terms congenital_anomaly_terms json_loads py_eval
  call_diagnostic_ollama call_ollama).
Local Abbreviation analyze := (analyze_text medically_significant_terms
  significant_disability_terms congenital_anomaly_terms json_loads py_eval
  call_diagnostic_ollama call_ollama).

(** A request that is not JSON, or whose ["text"] is absent or blank, is
    answered with status 400 and a fixed error whatever the corpora and the
    service replies: neither service nor parser is consulted. *)
Theorem analyze_route_rejects_before_service_calls (req : analyze_request) :
  (req = NotJson -> route req = mk_response 400 [("error", "Request must be JSON")]) /\
  (forall text, req = JsonObject text -> strip (default "" text) = "" ->
     route req = mk_response 400 [("error", "No text provided for analysis")]).
Proof.
  split; [intros ->; reflexivity|].
  intros text -> Hblank. simpl. unfold analyze_text. rewrite Hblank. reflexivity.
Qed.

(** Error statuses of a non-blank request on the event-extraction path
    (the diagnosis call found nothing): a failed service call gives 500
    "Internal server error"; a reply that parses to something other than a
    dict holding [Adverse_Events] gives 400 "Invalid response format". *)
Theorem analyze_extraction_error_statuses (text : string) :
  strip text <> "" ->
  strip (call_diagnostic_ollama (strip text)) = "" ->
  (call_ollama (strip text) = None ->
     analyze text = mk_response 500 [("error", "Internal server error")]) /\
  (forall reply, call_ollama (strip text) = Some reply ->
     safe_json_loads json_loads py_eval reply = Ok POther ->
     analyze text = mk_response 400 [("error", "Invalid response format")]).
Proof.
  intros Hne Hdiag. unfold analyze_text.
  destruct (String.eqb_spec (strip text) "") as [E|_]; [contradiction|].
  unfold extract_medical_information. rewrite Hdiag. cbn [String.eqb negb].
  split.
  - intros ->. reflexivity.
  - intros reply -> Hparse. rewrite Hparse. reflexivity.
Qed.

End RouteFacts.

(** ** Keys of the assembled response *)

Lemma assemble_from_keys_sublist (ms sd ca : gset string) (i : nat) (events : list event) :
  map fst (assemble_from ms sd ca i events) `sublist_of`
  List.concat (map field_names (seq i (List.length events))).
Proof.
  revert i. induction events as [|ev rest IH]; intros i; [constructor|].
  cbn [assemble_from List.length seq map List.concat].
  destruct (resolve_event ms sd ca ev) as [[[t sev] ser]|].
  - rewrite map_app. apply sublist_app; [reflexivity|apply IH].
  - apply sublist_inserts_l, IH.
Qed.

(** The response of a processed request never writes a key twice (so the
    dict keeps every field) and holds at most 15 fields, 3 for each of at
    most 5 events, on both extraction paths. *)
Theorem assembled_fields_distinct_and_bounded (ms sd ca : gset string) (events : list event) :
  NoDup (map fst (assemble ms sd ca events)) /\
  List.length (assemble ms sd ca events) <= 15.
Proof.
  unfold assemble.
  pose proof (assemble_from_keys_sublist ms sd ca 1 (take 5 events)) as Hsub.
  assert (Hlen : List.length (take 5 events) <= 5) by (rewrite length_take; lia).
  remember (List.length (take 5 events)) as m eqn:Em. clear Em.
  assert (Hm : NoDup (List.concat (map field_names (seq 1 m))) /\
               List.length (List.concat (map field_names (seq 1 m))) <= 15).
  { do 6 (destruct m as [|m];
      [split; [apply (bool_decide_unpack _); vm_compute; reflexivity | vm_compute; lia]|]).
    lia. }
  destruct Hm as [Hnd Hl]. split.
  - eapply sublist_NoDup; [exact Hnd|exact Hsub].
  - apply sublist_length in Hsub. rewrite length_map in Hsub. lia.
Qed.

(** ** Severity of diagnosed conditions *)

Lemma first_rule_in (rules : list (list string * string)) (l : string) :
  In (first_rule rules l) (SEV_NONE :: map snd rules).
Proof.
  induction rules as [|[keywords sev] rest IH]; simpl; [auto|].
  destruct (any_in keywords l); simpl; [auto|].
  simpl in IH. tauto.
Qed.

Lemma diagnosis_events_shape (d : string) :
  Forall (fun ev => Is_Diagnosis ev = true /\ Severity ev = Some "To be determined")
    (diagnosis_events d).
Proof.
  unfold diagnosis_events. destruct (contains "," d).
  - apply Forall_forall. intros ev Hev. apply list_elem_of_fmap in Hev as (c & -> & _).
    split; reflexivity.
  - repeat constructor.
Qed.

(** Every condition of the diagnosis path resolves to one of the seven
    recognised severity values (so its seriousness agrees with it), whatever
    the corpora: the diagnosis path never emits a free-form severity. *)
Theorem diagnosis_severity_recognised (ms sd ca : gset string) (d : string) (ev : event) :
  strip d <> "" ->
  ev ∈ diagnosis_events d ->
  exists s, resolved_severity ms sd ca ev = Some s /\ In s severity_priority.
Proof.
  intros Hd Hev.
  pose proof (diagnosis_events_nonempty d Hd) as Hne. rewrite Forall_forall in Hne.
  pose proof (diagnosis_events_shape d) as Hshape. rewrite Forall_forall in Hshape.
  destruct (Hshape ev Hev) as [Hdiag Hsev].
  unfold resolved_severity. rewrite (resolve_event_nonempty _ _ _ _ (Hne ev Hev)).
  cbn [option_map fst snd]. rewrite Hsev, Hdiag.
  change (is_placeholder (Some "To be determined")) with true. cbn iota.
  eexists. split; [reflexivity|].
  rewrite check_csv_severity_strip.
  destruct (any_in (elements sd) _); [simpl; tauto|].
  destruct (any_in (elements ca) _); [simpl; tauto|].
  destruct (any_in (elements ms) _); [simpl; tauto|].
  cbn [default]. rewrite determine_strip.
  pose proof (first_rule_in (severity_rules ms sd ca) (lower (strip (Term ev)))) as Hin.
  simpl in Hin |- *. tauto.
Qed.

(** For a diagnosed condition, a corpus match decides the severity even
    when the term has a Fatal keyword: the keyword escalation, which would
    answer "Fatal or death", is overridden by the tier. *)
Theorem diagnosed_corpus_match_overrides_fatal_keyword (ms sd ca : gset string) (ev : event) :
  Is_Diagnosis ev = true ->
  Severity ev = Some "To be determined" ->
  strip (Term ev) <> "" ->
  any_in ["death"; "fatal"; "mortality"; "died"; "passed away"; "deceased"; "expired"; "demise"]
    (lower (strip (Term ev))) = true ->
  any_in (elements sd) (lower (strip (Term ev))) = false ->
  any_in (elements ca) (lower (strip (Term ev))) = false ->
  any_in (elements ms) (lower (strip (Term ev))) = true ->
  determine_adr_severity_for_diagnosed ms sd ca (strip (Term ev)) = SEV_FATAL /\
  resolved_severity ms sd ca ev = Some SEV_MEDSIG.
Proof.
  intros Hdiag Hsev Hne Hfatal Hsd Hca Hms. split.
  - rewrite determine_strip. unfold severity_rules. cbn [first_rule]. rewrite Hfatal. reflexivity.
  - unfold resolved_severity. rewrite (resolve_event_nonempty _ _ _ _ Hne).
    cbn [option_map fst snd]. rewrite check_csv_severity_strip, Hsd, Hca, Hms. reflexivity.
Qed.

(** ** Loaded corpus terms *)

Lemma lower_char_idem (c : ascii) : lower_char (lower_char c) = lower_char c.
Proof. destruct c as [[] [] [] [] [] [] [] []]; reflexivity. Qed.

Lemma lower_idem (s : string) : lower (lower s) = lower s.
Proof. induction s as [|c r IH]; simpl; [reflexivity|]. rewrite lower_char_idem, IH. reflexivity. Qed.

(** Every term of a loaded tier is already lowercased and trimmed. *)
Theorem loaded_terms_normalised (cells : list (option string)) (terms : gset string) :
  load_terms (FileRows cells) = Ok terms ->
  forall t, t ∈ terms -> lower t = t /\ strip t = t.
Proof.
  intros [= <-] t Ht.
  apply elem_of_list_to_set, list_elem_of_fmap in Ht as (x & -> & _).
  split.
  - rewrite <- strip_lower, lower_idem. reflexivity.
  - apply strip_idem.
Qed.

(** Loading and matching compose: if the SignificantDisability file has a
    cell that occurs, ignoring case and surrounding whitespace, inside the
    lowercased trimmed term, the loaded corpus classifies the term as
    "Significant disability or incapacity". *)
Theorem loaded_disability_cell_matches (fs : string -> csv_source)
    (ms sd ca : gset string) (cells : list (option string)) (cell term : string) :
  load_ae_terms_from_csv fs = Ok (ms, sd, ca) ->
  fs SIGNIFICANT_DISABILITY_PATH = FileRows cells ->
  Some cell ∈ cells ->
  contains (strip (lower cell)) (lower (strip term)) = true ->
  check_csv_severity ms sd ca (strip term) = Some SEV_DISABILITY.
Proof.
  intros Hload Hfs Hcell Hcont.
  unfold load_ae_terms_from_csv in Hload. rewrite Hfs in Hload. cbn [load_terms] in Hload.
  destruct (load_terms (fs MEDICALLY_SIGNIFICANT_PATH)); [|discriminate].
  destruct (load_terms (fs CONGENITAL_ANOMALY_PATH)); [|discriminate].
  injection Hload as _ <- _.
  rewrite check_csv_severity_strip.
  assert (Hin : any_in (elements (list_to_set (map (fun t => strip (lower t)) (omap id cells))
                                  : gset string)) (lower (strip term)) = true).
  { unfold any_in. apply existsb_exists. exists (strip (lower cell)). split; [|exact Hcont].
    apply list_elem_of_In, elem_of_elements, elem_of_list_to_set.
    apply list_elem_of_fmap. exists cell. split; [reflexivity|].
    apply list_elem_of_omap. exists (Some cell). split; [exact Hcell|reflexivity]. }
  rewrite Hin. reflexivity.
Qed.

(** ** Splitting a diagnosed condition on commas *)

Lemma prefix_single (a c : ascii) (x : string) :
  String.prefix (String a EmptyString) (String c x) = Ascii.eqb a c.
Proof.
  simpl. destruct (ascii_dec a c) as [->|Hne].
  - rewrite Ascii.eqb_refl. destruct x; reflexivity.
  - symmetry. apply Ascii.eqb_neq. exact Hne.
Qed.

Lemma split_comma_not_nil (s : string) : split_comma s <> [].
Proof.
  destruct s as [|c r]; simpl; [discriminate|].
  destruct (split_comma r); [discriminate|]. destruct (Ascii.eqb c ","%char); discriminate.
Qed.

Lemma concat_cons_char (sep : string) (c : ascii) (x : string) (l : list string) :
  String.concat sep (String c x :: l) = String c (String.concat sep (x :: l)).
Proof. destruct l; reflexivity. Qed.

(** [','.join(s.split(','))] gives [s] back, and no piece of the split
    holds a comma. *)
Theorem split_comma_join_roundtrip (s : string) :
  String.concat "," (split_comma s) = s /\
  Forall (fun piece => contains "," piece = false) (split_comma s).
Proof.
  induction s as [|c r [IHjoin IHfree]]; [split; repeat constructor|].
  simpl. pose proof (split_comma_not_nil r) as Hnn.
  destruct (split_comma r) as [|first rest]; [contradiction|].
  destruct (Ascii.eqb_spec c ","%char) as [->|Hc].
  - split.
    + transitivity (String ","%char (String.concat "," (first :: rest)));
        [reflexivity|rewrite IHjoin; reflexivity].
    + constructor; [reflexivity|exact IHfree].
  - split.
    + rewrite concat_cons_char, IHjoin. reflexivity.
    + inversion IHfree as [|? ? Hfirst Hrest]; subst. constructor; [|exact Hrest].
      change (String.prefix (String ","%char EmptyString) (String c first) ||
              contains "," first = false).
      rewrite prefix_single, Hfirst.
      destruct (Ascii.eqb_spec ","%char c); [congruence|reflexivity].
Qed.

Lemma prefix_app (n x t : string) :
  String.prefix n x = true -> String.prefix n (String.append x t) = true.
Proof.
  revert x. induction n as [|a n IH]; intros x H; [destruct (String.append x t); reflexivity|].
  destruct x as [|c x]; [discriminate|]. simpl in H |- *.
  destruct (ascii_dec a c); [apply IH, H|discriminate].
Qed.

Lemma contains_app_l (n x t : string) :
  contains n x = true -> contains n (String.append x t) = true.
Proof.
  induction x as [|c x IH]; intros H.
  - simpl in H. rewrite orb_false_r in H. destruct n; [|discriminate].
    destruct t; reflexivity.
  - simpl in H |- *. apply orb_true_iff in H as [H|H].
    + apply orb_true_iff. left. apply (prefix_app n (String c x) t), H.
    + apply orb_true_iff. right. apply IH, H.
Qed.

Lemma contains_app_r (n x y : string) :
  contains n y = true -> contains n (String.append x y) = true.
Proof.
  induction x as [|c x IH]; intros H; [exact H|].
  simpl. apply orb_true_iff. right. apply IH, H.
Qed.

Lemma rstrip_prefix_of (s : string) : exists t, s = String.append (rstrip s) t.
Proof.
  induction s as [|c r [t Ht]]; [exists ""; reflexivity|]. simpl.
  destruct (is_space c && String.eqb (rstrip r) ""); [exists (String c r); reflexivity|].
  exists t. change (String c r = String c (String.append (rstrip r) t)). f_equal. exact Ht.
Qed.

Lemma lstrip_suffix_of (s : string) : exists t, s = String.append t (lstrip s).
Proof.
  induction s as [|c r [t Ht]]; [exists ""; reflexivity|]. simpl.
  destruct (is_space c);
    [exists (String c t); change (String c r = String c (String.append t (lstrip r))); f_equal; exact Ht|].
  exists ""; reflexivity.
Qed.

Lemma contains_strip (n s : string) : contains n (strip s) = true -> contains n s = true.
Proof.
  intros H. unfold strip in H.
  destruct (rstrip_prefix_of (lstrip s)) as [t Ht].
  destruct (lstrip_suffix_of s) as [u Hu].
  rewrite Hu. apply contains_app_r. rewrite Ht. apply contains_app_l, H.
Qed.

(** On the diagnosis path a condition with commas becomes one candidate per
    non-empty fragment: every candidate term is non-empty, trimmed and free
    of commas, flagged as a diagnosis with the placeholder severity. *)
Theorem diagnosis_fragments_comma_free (d : string) :
  contains "," d = true ->
  Forall (fun ev => Term ev <> "" /\ strip (Term ev) = Term ev /\
                    contains "," (Term ev) = false /\
                    Is_Diagnosis ev = true /\ Severity ev = Some "To be determined")
    (diagnosis_events d).
Proof.
  intros Hd. unfold diagnosis_events. rewrite Hd.
  apply Forall_forall. intros ev Hev.
  apply list_elem_of_fmap in Hev as (c & -> & Hc).
  apply list_elem_of_filter in Hc as [Hne Hc].
  apply list_elem_of_fmap in Hc as (piece & -> & Hpiece). cbn [Term Is_Diagnosis Severity].
  destruct (String.eqb_spec (strip piece) "") as [E|E]; [destruct Hne|].
  split; [exact E|]. split; [apply strip_idem|]. split; [|auto].
  destruct (split_comma_join_roundtrip d) as [_ Hfree].
  rewrite Forall_forall in Hfree. pose proof (Hfree piece Hpiece) as Hp.
  destruct (contains "," (strip piece)) eqn:Ec; [|reflexivity].
  apply contains_strip in Ec. congruence.
Qed.

(** ** Which path produced the events *)

Section ExtractFacts.

Variable json_loads : string -> option parsed.
Variable py_eval : string -> option parsed.
Variable call_diagnostic_ollama : string -> string.
Variable call_ollama : string -> option string.

Local Abbreviation extract := (extract_medical_information json_loads py_eval
  call_diagnostic_ollama call_ollama).

Lemma dedup_events_not_diagnosis (seen : gset string) (entries : list oracle_event) :
  Forall (fun ev => Is_Diagnosis ev = false) (dedup_events seen entries).
Proof.
  apply Forall_forall. intros ev Hev.
  eapply elem_of_sublist in Hev; [|apply dedup_events_sublist].
  apply list_elem_of_fmap in Hev as (entry & -> & _). reflexivity.
Qed.

(** A non-blank answer of the diagnosis service decides the result: the
    extraction service and both JSON parsers are then never consulted, and
    every event returned is flagged as a diagnosis. On the extraction path
    every event is flagged as not being one. *)
Theorem extracted_events_flag_their_path (text : string) :
  (strip (call_diagnostic_ollama text) <> "" ->
   forall json_loads' py_eval' call_ollama',
     extract text = extract_medical_information json_loads' py_eval'
                      call_diagnostic_ollama call_ollama' text) /\
  (forall events, extract text = Ok events ->
   Forall (fun ev => Is_Diagnosis ev =
                     negb (String.eqb (strip (call_diagnostic_ollama text)) "")) events).
Proof.
  unfold extract_medical_information. split.
  - intros Hd j' e' c'. destruct (String.eqb_spec (strip (call_diagnostic_ollama text)) "");
      [contradiction|reflexivity].
  - intros events.
    destruct (String.eqb_spec (strip (call_diagnostic_ollama text)) "") as [_|Hd]; simpl.
    + destruct (call_ollama text) as [reply|]; [|discriminate].
      destruct (safe_json_loads json_loads py_eval reply) as [[entries|]|]; try discriminate.
      intros [= <-]. unfold extract_events.
      pose proof (dedup_events_not_diagnosis ∅ entries) as Hall.
      apply Forall_forall. intros ev Hev.
      apply elem_of_take in Hev as (i & Hi & _). apply list_elem_of_lookup_2 in Hi.
      rewrite Forall_forall in Hall. exact (Hall ev Hi).
    + intros [= <-]. unfold diagnosis_events.
      destruct (contains "," (call_diagnostic_ollama text)).
      * apply Forall_forall. intros ev Hev.
        apply list_elem_of_fmap in Hev as (c & -> & _). reflexivity.
      * repeat constructor.
Qed.

End ExtractFacts.

(** ** Code fences around a reply *)

Lemma contains_tick_cons (c : ascii) (r : string) :
  contains "`" (String c r) = false -> c <> "`"%char /\ contains "`" r = false.
Proof.
  intros H. change (String.prefix (String "`"%char EmptyString) (String c r) ||
                    contains "`" r = false) in H.
  rewrite prefix_single in H. apply orb_false_iff in H as [H1 H2].
  split; [|exact H2]. intros ->. discriminate H1.
Qed.

Lemma prefix_tick_other (c : ascii) (x y : string) :
  c <> "`"%char -> String.prefix (String "`"%char x) (String c y) = false.
Proof. intros Hc. cbn [String.prefix]. destruct (ascii_dec "`" c); [congruence|reflexivity]. Qed.

Lemma remove_fences_go_plain (fuel : nat) (s : string) :
  contains "`" s = false -> remove_fences_go fuel s = s.
Proof.
  revert s. induction fuel as [|fuel IH]; intros s Hs; [reflexivity|].
  destruct s as [|c r]; [reflexivity|].
  apply contains_tick_cons in Hs as [Hc Hr]. cbn [remove_fences_go].
  rewrite !prefix_tick_other by exact Hc. rewrite IH by exact Hr. reflexivity.
Qed.

Lemma remove_fences_go_closing (fuel : nat) (s : string) :
  contains "`" s = false -> length s < fuel ->
  remove_fences_go fuel (s ++ "```") = s.
Proof.
  revert fuel. induction s as [|c r IH]; intros fuel Hs Hlen.
  - destruct fuel as [|fuel]; [simpl in Hlen; lia|].
    destruct fuel; reflexivity.
  - destruct fuel as [|fuel]; [simpl in Hlen; lia|].
    apply contains_tick_cons in Hs as [Hc Hr].
    change (String c r ++ "```") with (String c (r ++ "```")). cbn [remove_fences_go].
    rewrite !prefix_tick_other by exact Hc.
    rewrite IH by (simpl in Hlen; lia || exact Hr). reflexivity.
Qed.

Lemma substring_0_all (m : nat) (s : string) : length s <= m -> substring 0 m s = s.
Proof.
  revert m. induction s as [|c r IH]; intros m Hm; destruct m as [|m]; try reflexivity.
  - simpl in Hm. lia.
  - simpl in Hm |- *. rewrite IH by lia. reflexivity.
Qed.

Lemma length_app (s t : string) : length (s ++ t) = (length s + length t)%nat.
Proof. induction s as [|c r IH]; simpl; [reflexivity|rewrite IH; reflexivity]. Qed.

Lemma rstrip_app_keep (s t : string) :
  rstrip t <> "" -> rstrip (s ++ t) = s ++ rstrip t.
Proof.
  intros Ht. induction s as [|c r IH]; [reflexivity|].
  change (String c r ++ t) with (String c (r ++ t)). cbn [rstrip]. rewrite IH.
  destruct (String.eqb_spec (r ++ rstrip t) "") as [E|E].
  - destruct r; [simpl in E; contradiction|discriminate].
  - rewrite andb_false_r. reflexivity.
Qed.

Lemma lstrip_cons_nonspace (c : ascii) (r : string) :
  is_space c = false -> lstrip (String c r) = String c r.
Proof. intros H. simpl. rewrite H. reflexivity. Qed.

Lemma strip_json_fence (s : string) :
  strip ("```json" ++ s ++ "```") = "```json" ++ s ++ "```".
Proof.
  unfold strip.
  change ("```json" ++ s ++ "```") with (String "`"%char ("``json" ++ s ++ "```")).
  rewrite lstrip_cons_nonspace by reflexivity.
  change (String "`"%char ("``json" ++ s ++ "```")) with ("```json" ++ (s ++ "```")).
  assert (H3 : rstrip "```" = "```") by reflexivity.
  assert (Hin : rstrip (s ++ "```") = s ++ "```").
  { rewrite (rstrip_app_keep s "```"), H3; [reflexivity|]. rewrite H3. discriminate. }
  rewrite (rstrip_app_keep "```json" (s ++ "```")), Hin; [reflexivity|].
  rewrite Hin. destruct s; discriminate.
Qed.

Lemma remove_fences_go_cons (fuel : nat) (c : ascii) (r : string) :
  remove_fences_go (S fuel) (String c r) =
  if String.prefix "```json" (String c r)
  then remove_fences_go fuel (substring 7 (length (String c r)) (String c r))
  else if String.prefix "```" (String c r)
  then remove_fences_go fuel (substring 3 (length (String c r)) (String c r))
  else String c (remove_fences_go fuel r).
Proof. reflexivity. Qed.

Lemma prefix_self_app (p r : string) : String.prefix p (p ++ r) = true.
Proof.
  induction p as [|c p IH]; [destruct r; reflexivity|].
  change (match ascii_dec c c with left _ => String.prefix p (p ++ r) | right _ => false end
          = true).
  destruct (ascii_dec c c); [exact IH|congruence].
Qed.

Lemma substring_app_skip (p r : string) (m : nat) :
  substring (length p) m (p ++ r) = substring 0 m r.
Proof. induction p as [|c p IH]; [reflexivity|exact IH]. Qed.

Lemma remove_fences_json_fence (s : string) :
  contains "`" s = false -> remove_fences ("```json" ++ s ++ "```") = s.
Proof.
  intros Hs. unfold remove_fences.
  change (length ("```json" ++ s ++ "```")) with (S (6 + length (s ++ "```"))).
  change ("```json" ++ s ++ "```") with (String "`"%char ("``json" ++ s ++ "```")).
  rewrite remove_fences_go_cons.
  change (String "`"%char ("``json" ++ s ++ "```")) with ("```json" ++ (s ++ "```")).
  rewrite prefix_self_app.
  change 7%nat with (length "```json"). rewrite substring_app_skip.
  rewrite substring_0_all by (rewrite !length_app; simpl; lia).
  apply remove_fences_go_closing; [exact Hs|]. rewrite length_app. simpl. lia.
Qed.

(** A reply wrapped in a [```json ... ```] code fence parses exactly as the
    bare reply, as long as the reply holds no backtick of its own. *)
Theorem fenced_reply_parses_as_bare (json_loads py_eval : string -> option parsed)
    (s : string) :
  contains "`" s = false ->
  safe_json_loads json_loads py_eval ("```json" ++ s ++ "```") =
  safe_json_loads json_loads py_eval s.
Proof.
  intros Hs. unfold safe_json_loads.
  rewrite strip_json_fence, remove_fences_json_fence by exact Hs.
  unfold remove_fences. rewrite remove_fences_go_plain.
  - rewrite strip_idem. reflexivity.
  - destruct (contains "`" (strip s)) eqn:E; [|reflexivity].
    apply contains_strip in E. congruence.
Qed.

(** ** The [{...}] fallback of [safe_json_loads] *)

Lemma contains_char_cons (a c : ascii) (r : string) :
  contains (String a EmptyString) (String c r) =
  Ascii.eqb a c || contains (String a EmptyString) r.
Proof.
  change (String.prefix (String a EmptyString) (String c r) ||
          contains (String a EmptyString) r = Ascii.eqb a c || contains (String a EmptyString) r).
  rewrite prefix_single. reflexivity.
Qed.

Lemma upto_last_close_none (r : string) :
  upto_last_close r = None <-> contains "}" r = false.
Proof.
  induction r as [|c r IH]; [split; reflexivity|].
  rewrite contains_char_cons. cbn [upto_last_close].
  destruct (upto_last_close r) as [p|].
  - split; [discriminate|]. intros H. apply orb_false_iff in H as [_ H].
    apply IH in H. discriminate.
  - destruct IH as [IH _]. rewrite (IH eq_refl), orb_false_r.
    destruct (Ascii.eqb_spec c "}"%char) as [->|Hc]; [split; discriminate|].
    destruct (Ascii.eqb_spec "}"%char c); [congruence|split; reflexivity].
Qed.

Lemma upto_last_close_some (r p : string) :
  upto_last_close r = Some p <->
  exists mid post, r = mid ++ String "}" post /\ p = mid ++ "}" /\ contains "}" post = false.
Proof.
  split.
  - revert p. induction r as [|c r IH]; intros p H; [discriminate|].
    cbn [upto_last_close] in H. destruct (upto_last_close r) as [p'|] eqn:E.
    + injection H as <-. destruct (IH p' eq_refl) as (mid & post & -> & -> & Hpost).
      exists (String c mid), post. auto.
    + destruct (Ascii.eqb_spec c "}"%char) as [->|]; [|discriminate].
      injection H as <-. exists "", r. split; [reflexivity|]. split; [reflexivity|].
      apply upto_last_close_none, E.
  - intros (mid & post & -> & -> & Hpost). induction mid as [|c mid IH].
    + simpl. apply upto_last_close_none in Hpost. rewrite Hpost. reflexivity.
    + simpl. rewrite IH. reflexivity.
Qed.

(** [re.search(r'\{.*\}', t, re.DOTALL).group(0)] yields [b] exactly when
    [t] splits as [pre ++ b ++ post] with [b] running from the first ['{']
    of [t] to the last ['}'] after it: [pre] holds no ['{'] and [post] no
    ['}']. *)
Theorem bracket_extract_spec (t b : string) :
  bracket_extract t = Some b <->
  exists pre mid post,
    t = pre ++ String "{" (mid ++ String "}" post) /\ b = String "{" (mid ++ "}") /\
    contains "{" pre = false /\ contains "}" post = false.
Proof.
  split.
  - revert b. induction t as [|c r IH]; intros b H; [discriminate|].
    cbn [bracket_extract] in H. destruct (Ascii.eqb_spec c "{"%char) as [->|Hc].
    + destruct (upto_last_close r) as [p|] eqn:E; [|discriminate].
      injection H as <-. apply upto_last_close_some in E as (mid & post & -> & -> & Hpost).
      exists "", mid, post. repeat split; auto.
    + destruct (IH b H) as (pre & mid & post & -> & -> & Hpre & Hpost).
      exists (String c pre), mid, post. repeat split; auto.
      rewrite contains_char_cons, Hpre, orb_false_r.
      destruct (Ascii.eqb_spec "{"%char c); [congruence|reflexivity].
  - intros (pre & mid & post & -> & -> & Hpre & Hpost). induction pre as [|c pre IH].
    + assert (Hu : upto_last_close (mid ++ String "}" post) = Some (mid ++ "}")).
      { apply upto_last_close_some. exists mid, post. auto. }
      simpl. rewrite Hu. reflexivity.
    + rewrite contains_char_cons in Hpre. apply orb_false_iff in Hpre as [Hc Hpre].
      change (bracket_extract (String c (pre ++ String "{" (mid ++ String "}" post)))
              = Some (String "{" (mid ++ "}"))).
      cbn [bracket_extract].
      destruct (Ascii.eqb_spec c "{"%char) as [->|_]; [rewrite Ascii.eqb_refl in Hc; discriminate|].
      apply IH, Hpre.
Qed.

(** ** Witnesses: the hypotheses above hold at concrete inputs *)

Lemma analyze_extraction_error_statuses_witness :
  strip "fever" <> "" /\ strip ((fun _ : string => "") (strip "fever")) = "" /\
  ((fun _ : string => @None string) (strip "fever") = None ->
     analyze_text ∅ ∅ ∅ (fun _ => None) (fun _ => None) (fun _ => "") (fun _ => None) "fever" =
     mk_response 500 [("error", "Internal server error")]) /\
  (forall reply, (fun _ : string => @None string) (strip "fever") = Some reply ->
     safe_json_loads (fun _ => None) (fun _ => None) reply = Ok POther ->
     analyze_text ∅ ∅ ∅ (fun _ => None) (fun _ => None) (fun _ => "") (fun _ => None) "fever" =
     mk_response 400 [("error", "Invalid response format")]).
Proof.
  split; [vm_compute; discriminate|]. split; [vm_compute; reflexivity|].
  apply (analyze_extraction_error_statuses ∅ ∅ ∅ (fun _ => None) (fun _ => None)
           (fun _ => "") (fun _ => None) "fever"); vm_compute; [discriminate|reflexivity].
Defined.

Lemma diagnosis_severity_recognised_witness :
  strip "rash" <> "" /\
  mk_event "rash" (Some "To be determined") true ∈ diagnosis_events "rash" /\
  exists s, resolved_severity ∅ ∅ ∅ (mk_event "rash" (Some "To be determined") true) = Some s /\
            In s severity_priority.
Proof.
  assert (Hd : strip "rash" <> "") by (vm_compute; discriminate).
  assert (Hin : mk_event "rash" (Some "To be determined") true ∈ diagnosis_events "rash")
    by (apply list_elem_of_singleton; vm_compute; reflexivity).
  split; [exact Hd|]. split; [exact Hin|].
  exact (diagnosis_severity_recognised ∅ ∅ ∅ "rash" _ Hd Hin).
Defined.

Lemma diagnosed_corpus_match_overrides_fatal_keyword_witness :
  Is_Diagnosis (mk_event "fatal rash" (Some "To be determined") true) = true /\
  any_in (elements ({["rash"]} : gset string)) (lower (strip "fatal rash")) = true /\
  determine_adr_severity_for_diagnosed {["rash"]} ∅ ∅ (strip "fatal rash") = SEV_FATAL /\
  resolved_severity {["rash"]} ∅ ∅ (mk_event "fatal rash" (Some "To be determined") true) =
    Some SEV_MEDSIG.
Proof.
  split; [reflexivity|]. split; [vm_compute; reflexivity|].
  apply (diagnosed_corpus_match_overrides_fatal_keyword {["rash"]} ∅ ∅
           (mk_event "fatal rash" (Some "To be determined") true));
    vm_compute; first [reflexivity|discriminate].
Defined.

Lemma loaded_terms_normalised_witness :
  load_terms (FileRows [Some " Paralysis "; None]) = Ok {["paralysis"]} /\
  forall t, t ∈ ({["paralysis"]} : gset string) -> lower t = t /\ strip t = t.
Proof.
  assert (H : load_terms (FileRows [Some " Paralysis "; None]) = Ok {["paralysis"]})
    by (vm_compute; reflexivity).
  split; [exact H|]. exact (loaded_terms_normalised _ _ H).
Defined.

Lemma loaded_disability_cell_matches_witness :
  let fs := fun p => if String.eqb p SIGNIFICANT_DISABILITY_PATH
                     then FileRows [Some "Paralysis"] else FileMissing in
  load_ae_terms_from_csv fs = Ok (∅, {["paralysis"]}, ∅) /\
  check_csv_severity ∅ {["paralysis"]} ∅ (strip "Leg paralysis") = Some SEV_DISABILITY.
Proof.
  intros fs.
  assert (Hload : load_ae_terms_from_csv fs = Ok (∅, {["paralysis"]}, ∅))
    by (vm_compute; reflexivity).
  split; [exact Hload|].
  apply (loaded_disability_cell_matches fs ∅ {["paralysis"]} ∅ [Some "Paralysis"]
           "Paralysis" "Leg paralysis" Hload);
    [vm_compute; reflexivity|apply list_elem_of_singleton; reflexivity|vm_compute; reflexivity].
Defined.

Lemma diagnosis_fragments_comma_free_witness :
  contains "," "rash, , fever" = true /\
  Forall (fun ev => Term ev <> "" /\ strip (Term ev) = Term ev /\
                    contains "," (Term ev) = false /\
                    Is_Diagnosis ev = true /\ Severity ev = Some "To be determined")
    (diagnosis_events "rash, , fever").
Proof.
  assert (H : contains "," "rash, , fever" = true) by (vm_compute; reflexivity).
  split; [exact H|]. exact (diagnosis_fragments_comma_free _ H).
Defined.

Lemma fenced_reply_parses_as_bare_witness :
  let json_loads := fun t => if String.eqb t "{}" then Some POther else None in
  contains "`" " {} " = false /\
  safe_json_loads json_loads (fun _ => None) ("```json" ++ " {} " ++ "```") =
  safe_json_loads json_loads (fun _ => None) " {} ".
Proof.
  intros json_loads.
  assert (H : contains "`" " {} " = false) by (vm_compute; reflexivity).
  split; [exact H|]. exact (fenced_reply_parses_as_bare json_loads (fun _ => None) _ H).
Defined.
